(** * Advanced Sounding

    A shallow embedding of the notebook [Advanced_Sounding.ipynb]: a
    straight-line script that loads a fixed-width sounding file with pandas,
    drops the rows that carry no temperature, dewpoint or wind observation,
    derives wind components, the lifted condensation level and the parcel
    profile with MetPy, and draws a skew-T chart.

    The calls into pandas that act on the in-memory table ([dropna],
    [reset_index], column selection, indexing) are modelled in full.  The
    calls whose work is numerical, graphical or touches the file system
    ([read_fwf], [get_test_data], [mpcalc.*], the plotting methods) are an
    interface, [Library], and every statement about them holds for all of
    its implementations. *)

From Stdlib Require Import String List Bool Arith ZArith Lia Floats Sorted.
Import ListNotations.
Open Scope string_scope.

(** ** Exceptions and the error monad

    Python raises; the embedding returns [Err].  [KeyError] and [IndexError]
    are the two exceptions the modelled pandas and numpy operations raise
    themselves; [Raised name] is an exception of class [name] raised inside
    an external library call. *)

Inductive Exception : Type :=
| KeyError (label : string)
| IndexError
| Raised (name : string).

Inductive result (A : Type) : Type :=
| Ok (a : A)
| Err (e : Exception).

Arguments Ok {A} a.
Arguments Err {A} e.

Definition bind {A B : Type} (c : result A) (k : A -> result B) : result B :=
  match c with
  | Ok a => k a
  | Err e => Err e
  end.

Declare Scope py_scope.
Delimit Scope py_scope with py.
Notation "x <- c ;; k" := (bind c (fun x => k))
  (at level 61, c at next level, right associativity) : py_scope.
Notation "' pat <- c ;; k" := (bind c (fun x => match x with pat => k end))
  (at level 61, pat pattern, c at next level, right associativity) : py_scope.
Open Scope py_scope.

Fixpoint mapM {A B : Type} (f : A -> result B) (l : list A) : result (list B) :=
  match l with
  | [] => Ok []
  | a :: l' => b <- f a ;; bs <- mapM f l' ;; Ok (b :: bs)
  end.

(** ** Units (metpy.units)

    [x * units.hPa] tags a magnitude with a unit. *)

Module units.

Inductive Unit : Type := hPa | degC | knots | degrees | kelvin | radians.

Record Quantity (A : Type) : Type := quantity {
  magnitude : A;
  unit_of : Unit
}.

Arguments quantity {A} magnitude unit_of.
Arguments magnitude {A} q.
Arguments unit_of {A} q.

(** [q[i]] on an array quantity: the [i]-th magnitude with the array's
    unit; numpy raises [IndexError] out of range. *)
Definition item (q : Quantity (list float)) (i : nat) : result (Quantity float) :=
  match nth_error (magnitude q) i with
  | Some x => Ok (quantity x (unit_of q))
  | None => Err IndexError
  end.

End units.

Import units.

(** ** The sounding table (pandas DataFrame)

    One row per observation level, six float64 columns; a missing value is
    the float NaN.  A DataFrame carries a row label (its index) next to
    every row. *)

Record SoundingRecord : Type := record {
  pressure : float;
  height : float;
  temperature : float;
  dewpoint : float;
  direction : float;
  speed : float
}.

Definition DataFrame : Type := list (nat * SoundingRecord).

Module pd.

Definition isna (x : float) : bool := PrimFloat.is_nan x.

Definition notna (x : float) : bool := negb (isna x).

(** Column lookup by label, [df[label]]; an unknown label is a [KeyError]. *)
Definition column (label : string) : result (SoundingRecord -> float) :=
  if label =? "pressure" then Ok pressure
  else if label =? "height" then Ok height
  else if label =? "temperature" then Ok temperature
  else if label =? "dewpoint" then Ok dewpoint
  else if label =? "direction" then Ok direction
  else if label =? "speed" then Ok speed
  else Err (KeyError label).

(** [df[label].values] *)
Definition values (label : string) (df : DataFrame) : result (list float) :=
  c <- column label ;; Ok (map (fun row => c (snd row)) df).

Inductive How : Type := any | all.

(** The rows [dropna] keeps: with [how='any'] those where every inspected
    value is present, with [how='all'] those where at least one is. *)
Definition keep (how : How) (cols : list (SoundingRecord -> float))
           (r : SoundingRecord) : bool :=
  match how with
  | any => forallb (fun c => notna (c r)) cols
  | all => existsb (fun c => notna (c r)) cols
  end.

(** [df.dropna(subset=..., how=...)]: rows are dropped, the surviving rows
    keep their labels and their order. *)
Definition dropna (subset : list string) (how : How) (df : DataFrame)
  : result DataFrame :=
  cols <- mapM column subset ;;
  Ok (filter (fun row => keep how cols (snd row)) df).

(** [df.reset_index(drop=True)]: the labels are replaced by 0, 1, 2, ... *)
Definition reset_index (df : DataFrame) : DataFrame :=
  combine (seq 0 (length df)) (map snd df).

End pd.

(** ** What the chart is made of

    One constructor per drawing call of the notebook.  [plot_point] and
    [plot_line] are [skew.plot] with the keyword [markerfacecolor] and
    [linewidth]; the two labels keep the unit that the f-string formats. *)

Inductive Artist : Type :=
| add_metpy_logo (x y : Z)
| plot (x y : Quantity (list float)) (fmt : string)
| plot_barbs (p u v : Quantity (list float))
| set_ylim (bottom top : Z)
| set_xlim (left right : Z)
| set_xlabel (name : string) (u : Unit)
| set_ylabel (name : string) (u : Unit)
| plot_point (x y : Quantity float) (fmt : string) (markerfacecolor : string)
| plot_line (x y : Quantity (list float)) (fmt : string) (linewidth : Z)
| shade_cin (p T prof Td : Quantity (list float))
| shade_cape (p T prof : Quantity (list float))
| axvline (x : Z) (color linestyle : string) (linewidth : Z)
| plot_dry_adiabats
| plot_moist_adiabats
| plot_mixing_lines.

(** ** The external libraries

    Every call may raise.  [figure] is [plt.figure]; the figure and the
    [SkewT] built on it are one state, threaded through the drawing calls;
    [draw] is any of the drawing methods. *)

Class Library : Type := {
  Figure : Type;
  Chart : Type;
  get_test_data : string -> result string;
  read_fwf : string -> nat -> list nat -> list string -> result DataFrame;
  wind_components :
    Quantity (list float) -> Quantity (list float) ->
    result (Quantity (list float) * Quantity (list float));
  lcl :
    Quantity float -> Quantity float -> Quantity float ->
    result (Quantity float * Quantity float);
  parcel_profile :
    Quantity (list float) -> Quantity float -> Quantity float ->
    result (Quantity (list float));
  to : Unit -> Quantity (list float) -> result (Quantity (list float));
  figure : Z * Z -> result Figure;
  SkewT : Figure -> Z -> result Figure;
  draw : Artist -> Figure -> result Figure;
  show : Figure -> result Chart
}.

(** ** The notebook *)

(** The variables of the third cell. *)
Record Variables : Type := variables {
  p : Quantity (list float);
  T : Quantity (list float);
  Td : Quantity (list float);
  wind_speed : Quantity (list float);
  wind_dir : Quantity (list float);
  u : Quantity (list float);
  v : Quantity (list float)
}.

Definition col_names : list string :=
  ["pressure"; "height"; "temperature"; "dewpoint"; "direction"; "speed"].

(** The filter: [df.dropna(subset=(...), how='all').reset_index(drop=True)]. *)
Definition filter_stage (df : DataFrame) : result DataFrame :=
  df' <- pd.dropna ["temperature"; "dewpoint"; "direction"; "speed"] pd.all df ;;
  Ok (pd.reset_index df').

Section Notebook.

Context {L : Library}.

(** [pd.read_fwf(get_test_data(...), skiprows=5, usecols=[...], names=col_names)] *)
Definition load : result DataFrame :=
  path <- get_test_data "may4_sounding.txt" ;;
  read_fwf path 5 [0; 1; 2; 3; 6; 7]%nat col_names.

(** Columns with their units, and the wind components. *)
Definition assign_units (df : DataFrame) : result Variables :=
  pv <- pd.values "pressure" df ;;
  Tv <- pd.values "temperature" df ;;
  Tdv <- pd.values "dewpoint" df ;;
  sv <- pd.values "speed" df ;;
  dv <- pd.values "direction" df ;;
  let wind_speed := quantity sv knots in
  let wind_dir := quantity dv degrees in
  '(u, v) <- wind_components wind_speed wind_dir ;;
  Ok (variables (quantity pv hPa) (quantity Tv degC) (quantity Tdv degC)
                wind_speed wind_dir u v).

(** The figure, the traces, the barbs, the axis limits and the labels. *)
Definition base_plot (x : Variables) : result Figure :=
  fig <- figure (9, 9)%Z ;;
  fig <- draw (add_metpy_logo 115 100) fig ;;
  skew <- SkewT fig 45%Z ;;
  skew <- draw (plot (p x) (T x) "r") skew ;;
  skew <- draw (plot (p x) (Td x) "g") skew ;;
  skew <- draw (plot_barbs (p x) (u x) (v x)) skew ;;
  skew <- draw (set_ylim 1000 100) skew ;;
  skew <- draw (set_xlim (-40) 60) skew ;;
  skew <- draw (set_xlabel "Temperature" (unit_of (T x))) skew ;;
  draw (set_ylabel "Pressure" (unit_of (p x))) skew.

(** [mpcalc.lcl(p[0], T[0], Td[0])] *)
Definition lcl_stage (x : Variables)
  : result (Quantity float * Quantity float) :=
  p0 <- item (p x) 0 ;;
  T0 <- item (T x) 0 ;;
  Td0 <- item (Td x) 0 ;;
  lcl p0 T0 Td0.

(** [mpcalc.parcel_profile(p, T[0], Td[0]).to('degC')] *)
Definition profile_stage (x : Variables) : result (Quantity (list float)) :=
  T0 <- item (T x) 0 ;;
  Td0 <- item (Td x) 0 ;;
  prof <- parcel_profile (p x) T0 Td0 ;;
  to degC prof.

(** The overlays drawn once the profile is known, and [plt.show()]. *)
Definition overlays (x : Variables) (prof : Quantity (list float))
           (skew : Figure) : result Chart :=
  skew <- draw (plot_line (p x) prof "k" 2) skew ;;
  skew <- draw (shade_cin (p x) (T x) prof (Td x)) skew ;;
  skew <- draw (shade_cape (p x) (T x) prof) skew ;;
  skew <- draw (axvline 0 "c" "--" 2) skew ;;
  skew <- draw plot_dry_adiabats skew ;;
  skew <- draw plot_moist_adiabats skew ;;
  skew <- draw plot_mixing_lines skew ;;
  show skew.

(** The cells of the notebook, top to bottom. *)
Definition run : result Chart :=
  df <- load ;;
  df <- filter_stage df ;;
  x <- assign_units df ;;
  skew <- base_plot x ;;
  '(lcl_pressure, lcl_temperature) <- lcl_stage x ;;
  skew <- draw (plot_point lcl_pressure lcl_temperature "ko" "black") skew ;;
  prof <- profile_stage x ;;
  overlays x prof skew.

(** Where a run can fail: the exception [e] is raised by one stage, every
    stage before it having returned. *)
Inductive first_failure (e : Exception) : Prop :=
| load_fails :
    load = Err e -> first_failure e
| assign_units_fails df t :
    load = Ok df -> filter_stage df = Ok t ->
    assign_units t = Err e -> first_failure e
| base_plot_fails df t x :
    load = Ok df -> filter_stage df = Ok t -> assign_units t = Ok x ->
    base_plot x = Err e -> first_failure e
| lcl_fails df t x skew :
    load = Ok df -> filter_stage df = Ok t -> assign_units t = Ok x ->
    base_plot x = Ok skew ->
    lcl_stage x = Err e -> first_failure e
| lcl_marker_fails df t x skew lcl_pressure lcl_temperature :
    load = Ok df -> filter_stage df = Ok t -> assign_units t = Ok x ->
    base_plot x = Ok skew ->
    lcl_stage x = Ok (lcl_pressure, lcl_temperature) ->
    draw (plot_point lcl_pressure lcl_temperature "ko" "black") skew = Err e ->
    first_failure e
| profile_fails df t x skew lcl_pressure lcl_temperature skew' :
    load = Ok df -> filter_stage df = Ok t -> assign_units t = Ok x ->
    base_plot x = Ok skew ->
    lcl_stage x = Ok (lcl_pressure, lcl_temperature) ->
    draw (plot_point lcl_pressure lcl_temperature "ko" "black") skew = Ok skew' ->
    profile_stage x = Err e -> first_failure e
| overlays_fail df t x skew lcl_pressure lcl_temperature skew' prof :
    load = Ok df -> filter_stage df = Ok t -> assign_units t = Ok x ->
    base_plot x = Ok skew ->
    lcl_stage x = Ok (lcl_pressure, lcl_temperature) ->
    draw (plot_point lcl_pressure lcl_temperature "ko" "black") skew = Ok skew' ->
    profile_stage x = Ok prof ->
    overlays x prof skew' = Err e -> first_failure e.

End Notebook.

(** ** The filter, in the words of the specification

    A row is dropped when temperature, dewpoint, direction and speed are
    all absent at once. *)

Definition all_absent (r : SoundingRecord) : bool :=
  pd.isna (temperature r) && pd.isna (dewpoint r) &&
  pd.isna (direction r) && pd.isna (speed r).

(** ** A test double of the libraries

    It computes nothing: every call hands its arguments back, so that a run
    can be inspected.  [file] is what the loader finds, [lcl_raises] and
    [profile_raises] make the two MetPy computations fail. *)

Definition double (file : result DataFrame)
           (lcl_raises profile_raises : option Exception) : Library := {|
  Figure := list Artist;
  Chart := list Artist;
  get_test_data := fun name => Ok name;
  read_fwf := fun _ _ _ _ => file;
  wind_components := fun s d => Ok (s, d);
  lcl := fun p0 T0 _ =>
    match lcl_raises with Some e => Err e | None => Ok (p0, T0) end;
  parcel_profile := fun p _ _ =>
    match profile_raises with Some e => Err e | None => Ok p end;
  to := fun unit q => Ok (quantity (magnitude q) unit);
  figure := fun _ => Ok [];
  SkewT := fun fig _ => Ok fig;
  draw := fun a fig => Ok (fig ++ [a])%list;
  show := fun fig => Ok fig
|}.

(** Four levels of a sounding, surface first; the second has lost its
    temperature and dewpoint, the third every observation but pressure and
    height. *)
Definition surface : SoundingRecord := record 1000 110 20 18 180 10.

Definition winds_only : SoundingRecord := record 925 770 nan nan 200 15.

Definition blank : SoundingRecord := record 850 1480 nan nan nan nan.

Definition aloft : SoundingRecord := record 250 10600 (-50) (-60) 270 80.

Definition sample : DataFrame :=
  [(0, surface); (1, winds_only); (2, blank); (3, aloft)]%nat.

(** The same levels, top of the column first. *)
Definition inverted : DataFrame :=
  [(0, aloft); (1, blank); (2, winds_only); (3, surface)]%nat.

(** A level that lost its pressure and height but kept its wind, next to a
    level that kept pressure and height only. *)
Definition unlevelled : SoundingRecord := record nan nan nan nan 200 15.

Definition gappy : DataFrame := [(0, unlevelled); (1, blank)]%nat.

(** What the filter leaves of [sample], and what the third cell binds from
    it when the libraries are the double. *)
Definition filtered_sample : DataFrame :=
  [(0, surface); (1, winds_only); (2, aloft)]%nat.

Definition sample_variables : Variables :=
  let s := quantity [10; 15; 80]%float knots in
  let d := quantity [180; 200; 270]%float degrees in
  variables (quantity [1000; 925; 250]%float hPa)
            (quantity [20; nan; -50]%float degC)
            (quantity [18; nan; -60]%float degC)
            s d s d.


(** ** What the rest of the notebook reads of a table

    The third cell reads five columns; height and the row labels are loaded
    and never read again. *)

Definition observation (r : SoundingRecord)
  : float * float * float * float * float :=
  (pressure r, temperature r, dewpoint r, direction r, speed r).

Definition observations (df : DataFrame)
  : list (float * float * float * float * float) :=
  map observation (filter (fun r => negb (all_absent r)) (map snd df)).

(** The pressure column, [df['pressure'].values]. *)
Definition pressures (df : DataFrame) : list float :=
  map (fun row => pressure (snd row)) df.

(** Surface first: a level is never below the levels that follow it. *)
Definition not_below (a b : float) : Prop := (b <=? a)%float = true.

(** The levels of [sample] as another file would give them: other labels,
    other heights, one more blank line. *)
Definition resurveyed : DataFrame :=
  [(10, record 1000 0 20 18 180 10);
   (11, record 990 nan nan nan nan nan);
   (20, record 925 nan nan nan 200 15);
   (30, record 850 1 nan nan nan nan);
   (40, record 250 2 (-50) (-60) 270 80)]%nat.

(** ** The library calls of a run, one by one

    The drawing calls of the fourth cell as two lists, in source order, and
    a sequence of drawing calls on one figure. *)



Section Calls.

Context {L : Library}.




End Calls.

(** The cells after the third: all they read of the table is [x]. *)
Definition after_units {L : Library} (x : Variables) : result Chart :=
  skew <- base_plot x ;;
  '(lcl_pressure, lcl_temperature) <- lcl_stage x ;;
  skew <- draw (plot_point lcl_pressure lcl_temperature "ko" "black") skew ;;
  prof <- profile_stage x ;;
  overlays x prof skew.

(** The same libraries on another file: [read_fwf] finds the table [df]. *)
Definition reading (L : Library) (df : DataFrame) : Library := {|
  Figure := @Figure L;
  Chart := @Chart L;
  get_test_data := @get_test_data L;
  read_fwf := fun _ _ _ _ => Ok df;
  wind_components := @wind_components L;
  lcl := @lcl L;
  parcel_profile := @parcel_profile L;
  to := @to L;
  figure := @figure L;
  SkewT := @SkewT L;
  draw := @draw L;
  show := @show L
|}.

(** A plotting library that refuses an empty column, as [skew.plot] does. *)
Definition strict (L : Library) : Library := {|
  Figure := @Figure L;
  Chart := @Chart L;
  get_test_data := @get_test_data L;
  read_fwf := @read_fwf L;
  wind_components := @wind_components L;
  lcl := @lcl L;
  parcel_profile := @parcel_profile L;
  to := @to L;
  figure := @figure L;
  SkewT := @SkewT L;
  draw := fun a skew =>
    match a with
    | plot x _ _ =>
        match magnitude x with
        | [] => Err IndexError
        | _ :: _ => @draw L a skew
        end
    | _ => @draw L a skew
    end;
  show := @show L
|}.

(** * Properties *)

(** ** The error monad *)

Lemma bind_Ok {A B : Type} (c : result A) (k : A -> result B) (b : B) :
  bind c k = Ok b -> exists a, c = Ok a /\ k a = Ok b.
Proof.
  destruct c as [a | e]; simpl; intros H.
  - exists a. split; [reflexivity | exact H].
  - discriminate H.
Qed.

Lemma bind_Err {A B : Type} (c : result A) (k : A -> result B) (e : Exception) :
  bind c k = Err e -> c = Err e \/ exists a, c = Ok a /\ k a = Err e.
Proof.
  destruct c as [a | e']; simpl; intros H.
  - right. exists a. split; [reflexivity | exact H].
  - left. injection H as ->. reflexivity.
Qed.

(** ** Lists of labelled rows *)

Lemma filter_all_true {A : Type} (f : A -> bool) (l : list A) :
  (forall a, In a l -> f a = true) -> filter f l = l.
Proof.
  induction l as [| a l IH]; simpl; intros Hall.
  - reflexivity.
  - rewrite (Hall a (or_introl eq_refl)).
    f_equal. apply IH. intros b Hb. apply Hall. right. exact Hb.
Qed.

Lemma map_snd_filter {A B : Type} (f : B -> bool) (l : list (A * B)) :
  map snd (filter (fun row => f (snd row)) l) = filter f (map snd l).
Proof.
  induction l as [| [a b] l IH]; simpl.
  - reflexivity.
  - destruct (f b); simpl; rewrite IH; reflexivity.
Qed.

Lemma reset_index_length (df : DataFrame) :
  length (pd.reset_index df) = length df.
Proof.
  unfold pd.reset_index.
  rewrite length_combine, length_seq, length_map.
  apply Nat.min_id.
Qed.

Lemma reset_index_rows (df : DataFrame) :
  map snd (pd.reset_index df) = map snd df.
Proof.
  unfold pd.reset_index.
  rewrite <- (length_map snd df).
  generalize (map snd df) as rows. generalize 0 as start.
  intros start rows. revert start.
  induction rows as [| r rows IH]; intros start; simpl.
  - reflexivity.
  - f_equal. apply IH.
Qed.

Lemma reset_index_labels (df : DataFrame) :
  map fst (pd.reset_index df) = seq 0 (length df).
Proof.
  unfold pd.reset_index.
  rewrite <- (length_map snd df).
  generalize (map snd df) as rows. generalize 0 as start.
  intros start rows. revert start.
  induction rows as [| r rows IH]; intros start; simpl.
  - reflexivity.
  - f_equal. apply IH.
Qed.

Lemma reset_index_twice (df : DataFrame) :
  pd.reset_index (pd.reset_index df) = pd.reset_index df.
Proof.
  unfold pd.reset_index at 1.
  rewrite reset_index_length, reset_index_rows.
  reflexivity.
Qed.

(** ** The filter *)

Lemma subset_columns :
  mapM pd.column ["temperature"; "dewpoint"; "direction"; "speed"]
  = Ok [temperature; dewpoint; direction; speed].
Proof. reflexivity. Qed.

(** [how='all'] over the four columns is the specification's test. *)
Lemma keep_all_absent (r : SoundingRecord) :
  pd.keep pd.all [temperature; dewpoint; direction; speed] r
  = negb (all_absent r).
Proof.
  unfold all_absent, pd.notna. simpl. unfold pd.notna.
  destruct (pd.isna (temperature r)), (pd.isna (dewpoint r)),
    (pd.isna (direction r)), (pd.isna (speed r)); reflexivity.
Qed.

Lemma filter_stage_eq (df : DataFrame) :
  filter_stage df
  = Ok (pd.reset_index (filter (fun row => negb (all_absent (snd row))) df)).
Proof.
  unfold filter_stage, pd.dropna.
  rewrite subset_columns. simpl.
  do 2 f_equal.
  apply filter_ext. intros row. apply keep_all_absent.
Qed.

(** C1. The filter returns, for every table: the rows of the input in which
    temperature, dewpoint, direction and speed are not all absent, unchanged
    and in their input order, labelled 0, 1, 2, ... *)
Theorem filter_stage_spec (df : DataFrame) :
  exists t,
    filter_stage df = Ok t /\
    map snd t = filter (fun r => negb (all_absent r)) (map snd df) /\
    map fst t = seq 0 (length t).
Proof.
  eexists. split; [apply filter_stage_eq |]. split.
  - rewrite reset_index_rows.
    apply (map_snd_filter (fun r => negb (all_absent r))).
  - rewrite reset_index_labels, reset_index_length. reflexivity.
Qed.

(** The two rows of the specification's example, and a whole table. *)
Example blank_row_dropped : filter_stage [(7, blank)]%nat = Ok [].
Proof. reflexivity. Qed.

Example winds_only_row_kept :
  filter_stage [(7, winds_only)]%nat = Ok [(0, winds_only)]%nat.
Proof. reflexivity. Qed.

Example filter_sample :
  filter_stage sample = Ok [(0, surface); (1, winds_only); (2, aloft)]%nat.
Proof. reflexivity. Qed.

(** C8. Filtering a filtered table gives the same table back. *)
Theorem filter_stage_idempotent (df : DataFrame) :
  (t <- filter_stage df ;; filter_stage t) = filter_stage df.
Proof.
  rewrite (filter_stage_eq df). simpl.
  rewrite filter_stage_eq. f_equal.
  rewrite filter_all_true.
  - apply reset_index_twice.
  - intros [i r] Hin. simpl.
    apply (in_map snd) in Hin. simpl in Hin.
    rewrite reset_index_rows in Hin.
    rewrite (map_snd_filter (fun r => negb (all_absent r))) in Hin.
    apply filter_In in Hin. apply Hin.
Qed.

(** C9. Pressure and height play no part in the filter: whatever they hold,
    missing or not, a row of the table with one of the four inspected values
    present is in the result, and a row with all four missing is not. *)
Theorem filter_ignores_pressure_height
        (df t : DataFrame) (pr ht tv tdv dv sv : float) :
  filter_stage df = Ok t ->
  In (record pr ht tv tdv dv sv) (map snd df) ->
  (pd.notna tv || pd.notna tdv || pd.notna dv || pd.notna sv = true ->
   In (record pr ht tv tdv dv sv) (map snd t)) /\
  (pd.isna tv && pd.isna tdv && pd.isna dv && pd.isna sv = true ->
   ~ In (record pr ht tv tdv dv sv) (map snd t)).
Proof.
  intros Hf Hin.
  rewrite filter_stage_eq in Hf. injection Hf as <-.
  rewrite reset_index_rows.
  rewrite (map_snd_filter (fun r => negb (all_absent r))).
  split; intros H.
  - apply filter_In. split; [exact Hin |].
    unfold all_absent, pd.notna in *. simpl.
    destruct (pd.isna tv), (pd.isna tdv), (pd.isna dv), (pd.isna sv);
      simpl in *; congruence.
  - intros Hk. apply filter_In in Hk. destruct Hk as [_ Hk].
    unfold all_absent in Hk. simpl in Hk. rewrite H in Hk. discriminate Hk.
Qed.

(** ** The derived quantities *)

Section Deriver.

Context {L : Library}.

(** What the third cell binds, when it returns. *)
Lemma assign_units_Ok (t : DataFrame) (x : Variables) :
  assign_units t = Ok x ->
  p x = quantity (map (fun row => pressure (snd row)) t) hPa /\
  T x = quantity (map (fun row => temperature (snd row)) t) degC /\
  Td x = quantity (map (fun row => dewpoint (snd row)) t) degC /\
  wind_speed x = quantity (map (fun row => speed (snd row)) t) knots /\
  wind_dir x = quantity (map (fun row => direction (snd row)) t) degrees /\
  wind_components (wind_speed x) (wind_dir x) = Ok (u x, v x).
Proof.
  unfold assign_units, pd.values. simpl.
  destruct (wind_components _ _) as [[u0 v0] | e] eqn:Hw; simpl; intros H.
  - injection H as <-. simpl. repeat split; try reflexivity. exact Hw.
  - discriminate H.
Qed.

(** The pressure sequence has one level per row of the table. *)
Lemma pressure_levels (t : DataFrame) (x : Variables) :
  assign_units t = Ok x -> length (magnitude (p x)) = length t.
Proof.
  intros Hx. apply assign_units_Ok in Hx. destruct Hx as (Hp & _).
  rewrite Hp. simpl. apply length_map.
Qed.

Lemma item_head (x : float) (xs : list float) (unit : Unit) :
  item (quantity (x :: xs) unit) 0 = Ok (quantity x unit).
Proof. reflexivity. Qed.

Lemma item_empty (unit : Unit) (i : nat) :
  item (quantity [] unit) i = Err IndexError.
Proof. destruct i; reflexivity. Qed.

(** C5. For every input table, the parcel that [lcl] and [parcel_profile]
    lift is the first row of the filtered table, that is the first row of
    the input that the filter keeps; no hypothesis is made on the order of
    the pressures, and the pressure column is handed to [parcel_profile] as
    it stands.  With no row left, indexing raises. *)
Theorem lifting_parcel_is_first_record (df t : DataFrame) (x : Variables) :
  filter_stage df = Ok t ->
  assign_units t = Ok x ->
  match filter (fun r => negb (all_absent r)) (map snd df) with
  | [] =>
      lcl_stage x = Err IndexError /\ profile_stage x = Err IndexError
  | r :: rest =>
      lcl_stage x
      = lcl (quantity (pressure r) hPa) (quantity (temperature r) degC)
            (quantity (dewpoint r) degC) /\
      profile_stage x
      = (prof <- parcel_profile
                   (quantity (pressure r :: map pressure rest) hPa)
                   (quantity (temperature r) degC)
                   (quantity (dewpoint r) degC) ;;
         to degC prof)
  end.
Proof.
  intros Hf Hx.
  rewrite filter_stage_eq in Hf. injection Hf as <-.
  apply assign_units_Ok in Hx.
  destruct Hx as (Hp & HT & HTd & _).
  unfold lcl_stage, profile_stage. rewrite Hp, HT, HTd.
  rewrite <- !(map_map snd), reset_index_rows.
  rewrite (map_snd_filter (fun r => negb (all_absent r))).
  destruct (filter _ (map snd df)) as [| r rest]; simpl.
  - split; reflexivity.
  - split; reflexivity.
Qed.

End Deriver.

(** On the inverted table the parcel is still row 0, the top of the column,
    although the surface is the last row. *)
Example inverted_lifts_from_the_top :
  (t <- filter_stage inverted ;;
   x <- assign_units (L := double (Ok inverted) None None) t ;;
   lcl_stage (L := double (Ok inverted) None None) x)
  = Ok (quantity (pressure aloft) hPa, quantity (temperature aloft) degC).
Proof. reflexivity. Qed.

(** ** Failures *)

Section Failures.

Context {L : Library}.



(** The filter itself never raises. *)
Lemma filter_stage_total (df : DataFrame) (e : Exception) :
  filter_stage df <> Err e.
Proof. rewrite filter_stage_eq. discriminate. Qed.


(** X7. Conversely a failed run has failed in one of the stages: its
    exception is the one of the first stage that did not return, and that
    stage is never the filter. *)
Lemma run_Err_first_failure (e : Exception) :
  run = Err e -> first_failure e.
Proof.
  unfold run. intros H.
  destruct load as [df | e0] eqn:Hl; cbn [bind] in H;
    [| injection H as ->; apply load_fails; exact Hl ].
  destruct (filter_stage df) as [t | e0] eqn:Hf; cbn [bind] in H;
    [| exfalso; exact (filter_stage_total df e0 Hf) ].
  destruct (assign_units t) as [x | e0] eqn:Hx; cbn [bind] in H;
    [| injection H as ->; eapply assign_units_fails; eassumption ].
  destruct (base_plot x) as [skew | e0] eqn:Hb; cbn [bind] in H;
    [| injection H as ->; eapply base_plot_fails; eassumption ].
  destruct (lcl_stage x) as [[lp lt] | e0] eqn:Hlcl; cbn [bind] in H;
    [| injection H as ->; eapply lcl_fails; eassumption ].
  destruct (draw (plot_point lp lt "ko" "black") skew) as [skew' | e0] eqn:Hd;
    cbn [bind] in H;
    [| injection H as ->; eapply lcl_marker_fails; eassumption ].
  destruct (profile_stage x) as [prof | e0] eqn:Hprof; cbn [bind] in H;
    [| injection H as ->; eapply profile_fails; eassumption ].
  eapply overlays_fail; eassumption.
Qed.

(** A chart is shown only when every stage has returned. *)
Lemma run_Ok_all_stages (chart : Chart) :
  run = Ok chart ->
  exists df t x skew lcl_pressure lcl_temperature skew' prof,
    load = Ok df /\ filter_stage df = Ok t /\ assign_units t = Ok x /\
    base_plot x = Ok skew /\
    lcl_stage x = Ok (lcl_pressure, lcl_temperature) /\
    draw (plot_point lcl_pressure lcl_temperature "ko" "black") skew
    = Ok skew' /\
    profile_stage x = Ok prof /\
    overlays x prof skew' = Ok chart.
Proof.
  unfold run. intros H.
  apply bind_Ok in H. destruct H as (df & Hl & H).
  apply bind_Ok in H. destruct H as (t & Hf & H).
  apply bind_Ok in H. destruct H as (x & Hx & H).
  apply bind_Ok in H. destruct H as (skew & Hb & H).
  apply bind_Ok in H. destruct H as ([lp lt] & Hlcl & H).
  apply bind_Ok in H. destruct H as (skew' & Hd & H).
  apply bind_Ok in H. destruct H as (prof & Hprof & H).
  exists df, t, x, skew, lp, lt, skew', prof.
  repeat split; assumption.
Qed.

End Failures.

(** ** The theorems at work on the sample tables *)

Lemma filter_ignores_pressure_height_witness :
  filter_stage gappy = Ok [(0, unlevelled)]%nat /\
  In unlevelled (map snd [(0, unlevelled)]%nat) /\
  ~ In blank (map snd [(0, unlevelled)]%nat).
Proof.
  split; [reflexivity |]. split.
  - apply (proj1 (filter_ignores_pressure_height
                    gappy [(0, unlevelled)]%nat nan nan nan nan 200 15
                    eq_refl (or_introl eq_refl))).
    reflexivity.
  - apply (proj2 (filter_ignores_pressure_height
                    gappy [(0, unlevelled)]%nat 850 1480 nan nan nan nan
                    eq_refl (or_intror (or_introl eq_refl)))).
    reflexivity.
Defined.

Lemma lifting_parcel_is_first_record_witness :
  let D := double (Ok sample) None None in
  filter_stage sample = Ok filtered_sample /\
  assign_units (L := D) filtered_sample = Ok sample_variables /\
  lcl_stage (L := D) sample_variables
  = @lcl D (quantity 1000%float hPa) (quantity 20%float degC)
        (quantity 18%float degC) /\
  profile_stage (L := D) sample_variables
  = (prof <- @parcel_profile D
               (quantity [1000; 925; 250]%float hPa)
               (quantity 20%float degC) (quantity 18%float degC) ;;
     @to D degC prof).
Proof.
  intros D.
  split; [reflexivity |]. split; [reflexivity |].
  exact (lifting_parcel_is_first_record (L := D)
           sample filtered_sample sample_variables eq_refl eq_refl).
Defined.

(** * Further properties of the notebook *)

(** ** The filter as a table operation *)

Lemma combine_fst_snd {A B : Type} (l : list (A * B)) :
  combine (map fst l) (map snd l) = l.
Proof.
  induction l as [| [a b] l IH]; simpl.
  - reflexivity.
  - rewrite IH. reflexivity.
Qed.

Lemma strongly_sorted_filter {A B : Type} (R : B -> B -> Prop)
      (g : A -> B) (f : A -> bool) (l : list A) :
  StronglySorted R (map g l) -> StronglySorted R (map g (filter f l)).
Proof.
  induction l as [| a l IH]; simpl; intros Hs.
  - constructor.
  - apply StronglySorted_inv in Hs. destruct Hs as [Hs Hall].
    destruct (f a); simpl; [| apply IH; exact Hs ].
    constructor; [apply IH; exact Hs |].
    rewrite Forall_forall in *. intros b Hb.
    apply Hall. apply in_map_iff in Hb. destruct Hb as (a' & <- & Ha').
    apply in_map. apply filter_In in Ha'. apply Ha'.
Qed.

Lemma pressures_reset_index (df : DataFrame) :
  pressures (pd.reset_index df) = pressures df.
Proof.
  unfold pressures.
  rewrite <- (map_map snd pressure (pd.reset_index df)).
  rewrite reset_index_rows. apply map_map.
Qed.

(** X1. The filter returns its argument exactly when there is nothing to do:
    the labels already count from 0 and no row is blank in all four
    inspected columns. *)
Theorem filter_stage_fixed_point (df : DataFrame) :
  filter_stage df = Ok df <->
  map fst df = seq 0 (length df) /\
  forall row, In row df -> all_absent (snd row) = false.
Proof.
  rewrite filter_stage_eq. split.
  - intros H. injection H as H.
    assert (Hrows : map snd df
                    = filter (fun r => negb (all_absent r)) (map snd df)).
    { rewrite <- H at 1. rewrite reset_index_rows.
      apply (map_snd_filter (fun r => negb (all_absent r))). }
    assert (Hlen : length (filter (fun row => negb (all_absent (snd row))) df)
                   = length df).
    { rewrite <- H at 2. symmetry. apply reset_index_length. }
    split.
    + rewrite <- H at 1. rewrite reset_index_labels, Hlen. reflexivity.
    + intros row Hin. apply (in_map snd) in Hin.
      rewrite Hrows in Hin. apply filter_In in Hin.
      destruct Hin as [_ Hk]. apply negb_true_iff in Hk. exact Hk.
  - intros [Hlabels Hrows]. f_equal.
    rewrite filter_all_true.
    + unfold pd.reset_index. rewrite <- Hlabels. apply combine_fst_snd.
    + intros row Hin. rewrite (Hrows row Hin). reflexivity.
Qed.

(** X2. Whatever order the pressure column is in, the filter keeps it: levels
    that were pairwise related remain so. *)
Theorem filter_stage_keeps_pressure_order
        (R : float -> float -> Prop) (df t : DataFrame) :
  filter_stage df = Ok t ->
  StronglySorted R (pressures df) ->
  StronglySorted R (pressures t).
Proof.
  intros Hf Hs. rewrite filter_stage_eq in Hf. injection Hf as <-.
  rewrite pressures_reset_index.
  unfold pressures in *. apply strongly_sorted_filter. exact Hs.
Qed.

(** X3. Every row of the input is either kept or blank in the four inspected
    columns: the two counts add up to the size of the input. *)
Theorem filter_stage_row_count (df t : DataFrame) :
  filter_stage df = Ok t ->
  length t + length (filter all_absent (map snd df)) = length df.
Proof.
  intros Hf. rewrite filter_stage_eq in Hf. injection Hf as <-.
  rewrite reset_index_length.
  rewrite <- (length_map snd (filter _ df)).
  rewrite (map_snd_filter (fun r => negb (all_absent r))).
  rewrite <- (length_map snd df).
  induction (map snd df) as [| r rows IH]; simpl.
  - reflexivity.
  - destruct (all_absent r); simpl; lia.
Qed.

(** ** The variables of the third cell *)

Section Cells.

Context {L : Library}.

(** The third cell as a function of the five columns it reads. *)
Lemma assign_units_eq (t : DataFrame) :
  assign_units t
  = ('(u, v) <- wind_components
                  (quantity (map (fun row => speed (snd row)) t) knots)
                  (quantity (map (fun row => direction (snd row)) t) degrees) ;;
     Ok (variables (quantity (pressures t) hPa)
                   (quantity (map (fun row => temperature (snd row)) t) degC)
                   (quantity (map (fun row => dewpoint (snd row)) t) degC)
                   (quantity (map (fun row => speed (snd row)) t) knots)
                   (quantity (map (fun row => direction (snd row)) t) degrees)
                   u v)).
Proof. reflexivity. Qed.

(** X5. None of the five column lookups raises: the cell fails exactly when
    [wind_components] does, on the speed column in knots and the direction
    column in degrees, and with its exception. *)
Theorem assign_units_fails_iff (t : DataFrame) (e : Exception) :
  assign_units t = Err e <->
  wind_components (quantity (map (fun row => speed (snd row)) t) knots)
                  (quantity (map (fun row => direction (snd row)) t) degrees)
  = Err e.
Proof.
  rewrite assign_units_eq.
  destruct (wind_components _ _) as [[u0 v0] | e0]; simpl.
  - split; intros H; discriminate H.
  - split; intros H; injection H as ->; reflexivity.
Qed.

Lemma assign_units_observations (t t' : DataFrame) :
  map observation (map snd t) = map observation (map snd t') ->
  assign_units t = assign_units t'.
Proof.
  intros H. rewrite !assign_units_eq. unfold pressures.
  assert (Hcol : forall f : float * float * float * float * float -> float,
             map (fun row => f (observation (snd row))) t
             = map (fun row => f (observation (snd row))) t').
  { intros f.
    rewrite <- (map_map (fun row => observation (snd row)) f t).
    rewrite <- (map_map (fun row => observation (snd row)) f t').
    rewrite <- (map_map snd observation t), <- (map_map snd observation t').
    rewrite H. reflexivity. }
  pose proof (Hcol (fun o => fst (fst (fst (fst o))))) as Hp.
  pose proof (Hcol (fun o => snd (fst (fst (fst o))))) as HT.
  pose proof (Hcol (fun o => snd (fst (fst o)))) as HTd.
  pose proof (Hcol (fun o => snd (fst o))) as Hd.
  pose proof (Hcol (fun o => snd o)) as Hs.
  simpl in Hp, HT, HTd, Hd, Hs.
  rewrite Hp, HT, HTd, Hd, Hs. reflexivity.
Qed.

(** Heights, row labels and the rows the filter drops have no influence:
    two tables with the same observations in their kept rows give the third
    cell the same variables (or the same exception), and the later cells
    read nothing else. *)
Lemma observations_determine_variables (df df' : DataFrame) :
  observations df = observations df' ->
  (t <- filter_stage df ;; assign_units t)
  = (t <- filter_stage df' ;; assign_units t).
Proof.
  unfold observations. intros H.
  rewrite !filter_stage_eq. cbn [bind].
  apply assign_units_observations.
  rewrite !reset_index_rows.
  rewrite !(map_snd_filter (fun r => negb (all_absent r))).
  exact H.
Qed.

End Cells.

(** ** Tables with nothing to lift *)

Lemma filter_none {A : Type} (f : A -> bool) (l : list A) :
  (forall a, In a l -> f a = false) -> filter f l = [].
Proof.
  induction l as [| a l IH]; simpl; intros Hall.
  - reflexivity.
  - rewrite (Hall a (or_introl eq_refl)).
    apply IH. intros b Hb. apply Hall. right. exact Hb.
Qed.

Section Runs.

Context {L : Library}.

(** X8. A chart is shown only if the loaded table has a row with at least one
    of temperature, dewpoint, direction and speed: an empty file, or a file
    of blank levels, never gives a chart. *)
Theorem chart_needs_an_observation (chart : Chart) :
  run = Ok chart ->
  exists df r,
    load = Ok df /\ In r (map snd df) /\ all_absent r = false.
Proof.
  intros Hrun. apply run_Ok_all_stages in Hrun.
  destruct Hrun as (df & t & x & _ & lp & lt & _ & _
                    & Hl & Hf & Hx & _ & Hlcl & _).
  exists df.
  rewrite filter_stage_eq in Hf. injection Hf as <-.
  apply assign_units_Ok in Hx. destruct Hx as (Hp & _).
  unfold lcl_stage in Hlcl. rewrite Hp in Hlcl.
  rewrite <- (map_map snd pressure) in Hlcl.
  rewrite reset_index_rows in Hlcl.
  rewrite (map_snd_filter (fun r => negb (all_absent r))) in Hlcl.
  destruct (filter (fun r => negb (all_absent r)) (map snd df))
    as [| r rest] eqn:Hkept.
  - simpl in Hlcl. discriminate Hlcl.
  - exists r.
    assert (Hin : In r (filter (fun r => negb (all_absent r)) (map snd df))).
    { rewrite Hkept. left. reflexivity. }
    apply filter_In in Hin. destruct Hin as [Hin Hk].
    apply negb_true_iff in Hk. repeat split; assumption.
Qed.

End Runs.

(** ** The further properties at work on the sample tables *)

Lemma filter_stage_keeps_pressure_order_witness :
  StronglySorted not_below (pressures filtered_sample).
Proof.
  apply (filter_stage_keeps_pressure_order not_below sample filtered_sample).
  - reflexivity.
  - repeat constructor.
Defined.

Lemma filter_stage_row_count_witness :
  length filtered_sample + length (filter all_absent (map snd sample))
  = length sample.
Proof.
  apply (filter_stage_row_count sample filtered_sample). reflexivity.
Defined.

Lemma run_Err_first_failure_witness :
  first_failure (L := double (Ok sample) (Some (Raised "RuntimeError")) None)
                (Raised "RuntimeError").
Proof.
  apply (run_Err_first_failure
           (L := double (Ok sample) (Some (Raised "RuntimeError")) None)).
  reflexivity.
Defined.

Lemma chart_needs_an_observation_witness :
  exists df r,
    load (L := double (Ok sample) None None) = Ok df /\
    In r (map snd df) /\ all_absent r = false.
Proof.
  eapply (chart_needs_an_observation (L := double (Ok sample) None None)).
  reflexivity.
Defined.


(** * The run, call by call *)

Section CallByCall.

Context {L : Library}.










End CallByCall.



(** * Runs on two tables *)

Section TwoTables.

Context (L : Library).

Lemma run_reading (df : DataFrame) :
  @run (reading L df)
  = (path <- @get_test_data L "may4_sounding.txt" ;;
     x <- (t <- filter_stage df ;; @assign_units L t) ;;
     @after_units L x).
Proof.
  unfold run.
  change (@load (reading L df))
    with (path <- @get_test_data L "may4_sounding.txt" ;; Ok df).
  destruct (@get_test_data L _) as [path | e]; cbn [bind]; [| reflexivity].
  destruct (filter_stage df) as [t | e]; cbn [bind]; [| reflexivity].
  change (@assign_units (reading L df) t) with (@assign_units L t).
  destruct (@assign_units L t) as [x | e]; cbn [bind]; reflexivity.
Qed.

(** X6. Heights, row labels and the rows the filter drops have no influence
    on the run: with the same libraries, two files whose tables have the
    same observations in their kept rows end in the same chart or in the
    same exception. *)
Theorem observations_determine_run (df df' : DataFrame) :
  observations df = observations df' ->
  @run (reading L df) = @run (reading L df').
Proof.
  intros Hobs.
  rewrite (run_reading df), (run_reading df').
  rewrite (observations_determine_variables df df' Hobs).
  reflexivity.
Qed.

(** X9. A table whose rows are all blank in the four inspected columns (the
    empty table among them) never gives a chart.  The filter leaves nothing,
    the wind components and the traces are computed on empty columns, and
    the run ends with the exception of the first of those calls that raises,
    or else with the [IndexError] of [p[0]]. *)
Theorem blank_table_fails (df : DataFrame) :
  @load L = Ok df ->
  (forall row, In row df -> all_absent (snd row) = true) ->
  @run L
  = ('(u0, v0) <- @wind_components L (quantity [] knots) (quantity [] degrees) ;;
     _ <- @base_plot L (variables (quantity [] hPa) (quantity [] degC)
                                  (quantity [] degC) (quantity [] knots)
                                  (quantity [] degrees) u0 v0) ;;
     Err IndexError) /\
  forall chart, @run L <> Ok chart.
Proof.
  intros Hl Hblank.
  assert (Hrun : @run L
                 = ('(u0, v0) <- @wind_components L (quantity [] knots)
                                                  (quantity [] degrees) ;;
                    _ <- @base_plot L
                           (variables (quantity [] hPa) (quantity [] degC)
                                      (quantity [] degC) (quantity [] knots)
                                      (quantity [] degrees) u0 v0) ;;
                    Err IndexError)).
  { unfold run. rewrite Hl. cbn [bind].
    rewrite filter_stage_eq. cbn [bind].
    rewrite filter_none.
    - rewrite assign_units_eq. simpl.
      destruct (wind_components _ _) as [[u0 v0] | e]; cbn [bind];
        [| reflexivity ].
      destruct (base_plot _) as [skew | e]; reflexivity.
    - intros row Hin. rewrite (Hblank row Hin). reflexivity. }
  split; [exact Hrun |].
  intros chart Hok. rewrite Hrun in Hok.
  destruct (wind_components _ _) as [[u0 v0] | e]; cbn [bind] in Hok;
    [| discriminate Hok ].
  destruct (base_plot _) as [skew | e]; discriminate Hok.
Qed.

End TwoTables.

Lemma observations_determine_run_witness :
  run (L := reading (double (Ok []) None None) sample)
  = run (L := reading (double (Ok []) None None) resurveyed).
Proof.
  apply (observations_determine_run (double (Ok []) None None)
                                    sample resurveyed).
  reflexivity.
Defined.

Lemma blank_table_fails_witness :
  run (L := strict (double (Ok [(0, blank); (1, blank)]%nat) None None))
  = Err IndexError /\
  run (L := double (Ok []) None None) = Err IndexError.
Proof.
  split.
  - refine (eq_trans
              (proj1 (blank_table_fails
                        (strict (double (Ok [(0, blank); (1, blank)]%nat)
                                        None None))
                        [(0, blank); (1, blank)]%nat eq_refl _))
              eq_refl).
    intros row [<- | [<- | []]]; reflexivity.
  - refine (eq_trans
              (proj1 (blank_table_fails (double (Ok []) None None)
                                        [] eq_refl _))
              eq_refl).
    intros row [].
Defined.
